(** * A batch processor: validate, batch, transform, filter, count

    Shallow embedding of [src/refactor_20250929_1.py] and the properties its
    specification states about it.

    The program is dynamically typed, so the embedding starts with a universe
    of Python values and with the handful of built-in operations the program
    applies to them ([*], [+], [>], [len], [range], slicing, iteration), each
    returning either a value or the exception Python raises.  The methods of
    [ImprovedProcessor] are then transcribed one by one; the instance
    attributes [self.config] and [self.metrics] are threaded explicitly.

    Left out: the calls to the logger, which return nothing and change
    nothing the program reads; and the exceptions that are no [Exception]
    ([KeyboardInterrupt], [SystemExit]), which come from outside the
    program. *)

From Stdlib Require Import ZArith List String Ascii Lia.
From Stdlib Require Import Floats.PrimFloat.
From stdpp Require Import gmap strings list.

#[local] Set Warnings "-register-all".
#[local] Open Scope Z_scope.

(** ** Values *)

(** The built-in Python values the processor can be handed: [None], booleans,
    integers (unbounded), floats (IEEE 754 binary64, as Rocq's primitive
    floats), strings, lists, tuples, dictionaries (association lists, in
    insertion order) and [range] objects. *)
Inductive value : Type :=
| VNone
| VBool (b : bool)
| VInt (z : Z)
| VFloat (f : float)
| VStr (s : string)
| VList (l : list value)
| VTuple (l : list value)
| VDict (kvs : list (value * value))
| VRange (start stop step : Z).

(** [type(v).__name__] *)
Definition type_name (v : value) : string :=
  match v with
  | VNone => "NoneType"
  | VBool _ => "bool"
  | VInt _ => "int"
  | VFloat _ => "float"
  | VStr _ => "str"
  | VList _ => "list"
  | VTuple _ => "tuple"
  | VDict _ => "dict"
  | VRange _ _ _ => "range"
  end.

(** ** Exceptions *)

(** The subclasses of [Exception] that the built-in operations below raise. *)
Inductive exception : Type :=
| TypeError (msg : string)
| ValueError (msg : string)
| KeyError (key : string).

(** [str(e)]: the message, and for a [KeyError] the [repr] of the missing key
    (a plain identifier here, so its [repr] is the key between single
    quotes). *)
Definition str_exception (e : exception) : string :=
  match e with
  | TypeError msg => msg
  | ValueError msg => msg
  | KeyError key => "'" +:+ key +:+ "'"
  end.

(** The outcome of an expression: a value, or a raised exception. *)
Inductive outcome (A : Type) : Type :=
| Ok (a : A)
| Raise (e : exception).
Arguments Ok {A} a.
Arguments Raise {A} e.

#[global] Instance outcome_ret : MRet outcome := λ A, Ok.
#[global] Instance outcome_bind : MBind outcome :=
  λ A B f m, match m with Ok a => f a | Raise e => Raise e end.
#[global] Instance outcome_fmap : FMap outcome :=
  λ A B f m, match m with Ok a => Ok (f a) | Raise e => Raise e end.

(** A [for] loop whose body may raise: the first exception ends the loop. *)
Fixpoint for_each {A S : Type} (body : A → S → outcome S) (xs : list A) (s : S)
  : outcome S :=
  match xs with
  | [] => Ok s
  | x :: rest => s' ← body x s; for_each body rest s'
  end.

(** ** Built-in operations *)

Definition dquote : string := String "034"%char EmptyString.

Definition unsupported_operand (op : string) (v : value) : exception :=
  TypeError ("unsupported operand type(s) for " +:+ op +:+ ": '"
             +:+ type_name v +:+ "' and 'int'").

(** [can only concatenate str (not "int") to str] *)
Definition cannot_concatenate (v : value) : exception :=
  TypeError ("can only concatenate " +:+ type_name v +:+ " (not " +:+ dquote
             +:+ "int" +:+ dquote +:+ ") to " +:+ type_name v).

Fixpoint float_of_positive (p : positive) : float :=
  match p with
  | xH => 1%float
  | xO q => (2 * float_of_positive q)%float
  | xI q => (2 * float_of_positive q + 1)%float
  end.

(** [float(k)] for an integer [k].  Exact for [|k| < 2^53], which covers the
    integer literals of the program. *)
Definition float_of_int (k : Z) : float :=
  match k with
  | Z0 => 0%float
  | Zpos p => float_of_positive p
  | Zneg p => (- float_of_positive p)%float
  end.

(** [s * k] for a sequence [s]: [k] copies, none when [k <= 0]. *)
Definition str_repeat (s : string) (k : Z) : string :=
  Nat.iter (Z.to_nat k) (String.append s) EmptyString.

Definition list_repeat {A : Type} (l : list A) (k : Z) : list A :=
  Nat.iter (Z.to_nat k) (app l) [].

(** [v * k], the right operand an [int]. *)
Definition py_mul_int (v : value) (k : Z) : outcome value :=
  match v with
  | VInt z => Ok (VInt (z * k))
  | VBool b => Ok (VInt (Z.b2z b * k))
  | VFloat f => Ok (VFloat (f * float_of_int k))
  | VStr s => Ok (VStr (str_repeat s k))
  | VList l => Ok (VList (list_repeat l k))
  | VTuple l => Ok (VTuple (list_repeat l k))
  | VNone | VDict _ | VRange _ _ _ => Raise (unsupported_operand "*" v)
  end.

(** [v + k], the right operand an [int]. *)
Definition py_add_int (v : value) (k : Z) : outcome value :=
  match v with
  | VInt z => Ok (VInt (z + k))
  | VBool b => Ok (VInt (Z.b2z b + k))
  | VFloat f => Ok (VFloat (f + float_of_int k))
  | VStr _ | VList _ | VTuple _ => Raise (cannot_concatenate v)
  | VNone | VDict _ | VRange _ _ _ => Raise (unsupported_operand "+" v)
  end.

(** [v > k], the right operand an [int].  A float is compared with the
    float of [k], which is what Python computes when [k] is exactly
    representable; a NaN is greater than nothing. *)
Definition py_gt_int (v : value) (k : Z) : outcome bool :=
  match v with
  | VInt z => Ok (k <? z)
  | VBool b => Ok (k <? Z.b2z b)
  | VFloat f => Ok (PrimFloat.ltb (float_of_int k) f)
  | _ => Raise (TypeError ("'>' not supported between instances of '"
                           +:+ type_name v +:+ "' and 'int'"))
  end.

(** [operator.index(v)]: the integers and the booleans. *)
Definition py_index (v : value) : outcome Z :=
  match v with
  | VInt z => Ok z
  | VBool b => Ok (Z.b2z b)
  | _ => Raise (TypeError ("'" +:+ type_name v
                           +:+ "' object cannot be interpreted as an integer"))
  end.

(** [i + v] for an integer [i], where an integer is needed (a slice bound):
    an integer when [v] is an integer or a boolean; with a float the sum is
    a float, which a slice refuses as bound; nothing else adds to an
    integer. *)
Definition py_int_add (i : Z) (v : value) : outcome Z :=
  match v with
  | VInt z => Ok (i + z)
  | VBool b => Ok (i + Z.b2z b)
  | VFloat _ =>
      Raise (TypeError
               "slice indices must be integers or None or have an __index__ method")
  | _ => Raise (TypeError ("unsupported operand type(s) for +: 'int' and '"
                           +:+ type_name v +:+ "'"))
  end.

(** The number of items of [range(start, stop, step)], [step] non-zero. *)
Definition range_len (start stop step : Z) : Z :=
  if 0 <? step then
    if start <? stop then (stop - start - 1) / step + 1 else 0
  else if step <? 0 then
    if stop <? start then (start - stop - 1) / (- step) + 1 else 0
  else 0.

(** The items of [range(start, stop, step)]: item [k] is [start + k * step]. *)
Definition range_items (start stop step : Z) : list Z :=
  (λ k : nat, start + Z.of_nat k * step)
    <$> seq 0 (Z.to_nat (range_len start stop step)).

(** [range(start, stop, step)] with integer bounds and any object as step,
    iterated: a step that is no integer is a [TypeError], a zero step a
    [ValueError]. *)
Definition py_range (start stop : Z) (step : value) : outcome (list Z) :=
  s ← py_index step;
  if s =? 0 then Raise (ValueError "range() arg 3 must not be zero")
  else Ok (range_items start stop s).

(** [len(v)] *)
Definition py_len (v : value) : outcome Z :=
  match v with
  | VStr s => Ok (Z.of_nat (String.length s))
  | VList l | VTuple l => Ok (Z.of_nat (length l))
  | VDict kvs => Ok (Z.of_nat (length kvs))
  | VRange start stop step => Ok (range_len start stop step)
  | VNone | VBool _ | VInt _ | VFloat _ =>
      Raise (TypeError ("object of type '" +:+ type_name v +:+ "' has no len()"))
  end.

(** A slice bound brought into [0 .. len]: a negative bound counts from the
    end. *)
Definition clamp_index (len i : Z) : Z :=
  if i <? 0 then Z.max 0 (i + len) else Z.min i len.

(** The items of [l[i:j]]. *)
Definition slice_items {A : Type} (l : list A) (i j : Z) : list A :=
  let n := Z.of_nat (length l) in
  let lo := clamp_index n i in
  let hi := clamp_index n j in
  take (Z.to_nat (hi - lo)) (drop (Z.to_nat lo) l).

Definition string_of_list (cs : list ascii) : string :=
  foldr String EmptyString cs.

(** [v[i:j]]: a list gives a list, a tuple a tuple, a string a string; the
    other values are not sliced by the program (a range would give a range, a
    dictionary refuses a slice as key, the rest are not subscriptable). *)
Definition py_getslice (v : value) (i j : Z) : outcome value :=
  match v with
  | VList l => Ok (VList (slice_items l i j))
  | VTuple l => Ok (VTuple (slice_items l i j))
  | VStr s => Ok (VStr (string_of_list (slice_items (list_ascii_of_string s) i j)))
  | _ => Raise (TypeError ("'" +:+ type_name v +:+ "' object is not subscriptable"))
  end.

(** The items a [for] loop over [v] visits: the elements of a list or tuple,
    the characters of a string, the keys of a dictionary, the integers of a
    range. *)
Definition py_iter (v : value) : outcome (list value) :=
  match v with
  | VList l | VTuple l => Ok l
  | VStr s => Ok ((λ c, VStr (String c EmptyString)) <$> list_ascii_of_string s)
  | VDict kvs => Ok (fst <$> kvs)
  | VRange start stop step => Ok (VInt <$> range_items start stop step)
  | VNone | VBool _ | VInt _ | VFloat _ =>
      Raise (TypeError ("'" +:+ type_name v +:+ "' object is not iterable"))
  end.

(** [d[key]] for a dictionary with string keys. *)
Definition py_getitem (d : gmap string value) (key : string) : outcome value :=
  match d !! key with
  | Some v => Ok v
  | None => Raise (KeyError key)
  end.

(** [list(v)] *)
Definition py_list (v : value) : outcome value := VList <$> py_iter v.

Definition is_None (v : value) : bool :=
  match v with VNone => true | _ => false end.

(** [isinstance(v, (list, tuple))] *)
Definition isinstance_list_tuple (v : value) : bool :=
  match v with VList _ | VTuple _ => true | _ => false end.

(** ** The data of the processor *)

(** [self.metrics]: a dictionary whose three keys are fixed at construction
    and never added to or removed. *)
Record Metrics : Type := {
  processed : Z;
  failed : Z;
  performance : list value
}.

(** An instance: its two attributes. *)
Record ImprovedProcessor : Type := {
  self_config : gmap string value;
  self_metrics : Metrics
}.

(** The dictionary [get_metrics] builds.  [success_rate] is kept as the exact
    quotient (numerator, denominator); Python stores the float nearest to
    it. *)
Record MetricsSnapshot : Type := {
  total_processed : Z;
  total_failed : Z;
  success_rate : Z * Z;
  config : gmap string value
}.

(** The dataclass [ProcessingResult]; [error] and [metrics] default to
    [None]. *)
Record ProcessingResult : Type := {
  success : bool;
  data : value;
  error : option string;
  metrics : option MetricsSnapshot
}.

(** ** Methods: state and exceptions *)

(** A method body runs on the instance, returns or raises, and leaves the
    instance as it is at that point. *)
Definition M (A : Type) : Type := ImprovedProcessor → outcome A * ImprovedProcessor.

#[global] Instance M_ret : MRet M := λ A a self, (Ok a, self).
#[global] Instance M_bind : MBind M :=
  λ A B f m self,
    match m self with
    | (Ok a, self') => f a self'
    | (Raise e, self') => (Raise e, self')
    end.

Definition lift {A : Type} (r : outcome A) : M A := λ self, (r, self).

Definition get_self : M ImprovedProcessor := λ self, (Ok self, self).

Definition set_metrics (m : Metrics) : M unit :=
  λ self, (Ok tt, {| self_config := self_config self; self_metrics := m |}).

(** ** The methods of [ImprovedProcessor] *)

Definition _get_default_config : gmap string value :=
  {[ "batch_size" := VInt 97;
     "timeout" := VInt 3024;
     "retry_count" := VInt 3;
     "enable_caching" := VBool true ]}.

(** [ImprovedProcessor(config)]: [config or default], so an absent and an
    empty dictionary both give the default configuration. *)
Definition __init__ (config : option (gmap string value)) : ImprovedProcessor :=
  {| self_config :=
       match config with
       | Some c => if (size c =? 0)%nat then _get_default_config else c
       | None => _get_default_config
       end;
     self_metrics := {| processed := 0; failed := 0; performance := [] |} |}.

Definition validate (data : value) : M bool :=
  if is_None data then mret false
  else if negb (isinstance_list_tuple data) then mret false
  else
    n ← lift (py_len data);
    if n =? 0 then mret false else mret true.

Definition _apply_transformation (item : value) : outcome value :=
  v ← py_mul_int item 6; py_add_int v 67.

Definition _validate_result (result : value) : outcome bool :=
  py_gt_int result 99.

(** One turn of the loop of [_process_batch]: the [try] body either appends
    or not; any exception leaves [results] as it was and the loop goes on. *)
Definition _process_item (results : list value) (item : value) : list value :=
  match
    processed ← _apply_transformation item;
    keep ← _validate_result processed;
    Ok (if keep : bool then results ++ [processed] else results)
  with
  | Ok results' => results'
  | Raise _ => results
  end.

Definition _process_batch (batch : value) : outcome (list value) :=
  items ← py_iter batch;
  Ok (fold_left _process_item items []).

Definition get_metrics : M MetricsSnapshot :=
  self ← get_self;
  let m := self_metrics self in
  mret {| total_processed := processed m;
          total_failed := failed m;
          success_rate := (processed m, Z.max 1 (processed m + failed m));
          config := self_config self |}.

(** The body of the loop of [process]: slice, process, extend. *)
Definition _process_chunk (data batch_size : value) (i : Z) (results : list value)
  : outcome (list value) :=
  stop ← py_int_add i batch_size;
  batch ← py_getslice data i stop;
  batch_result ← _process_batch batch;
  Ok (results ++ batch_result).

(** The [try] block of [process]. *)
Definition process_try (data : value) : M ProcessingResult :=
  valid ← validate data;
  if negb valid then
    mret {| success := false; data := VNone;
            error := Some "Validation failed"; metrics := None |}
  else
    self ← get_self;
    batch_size ← lift (py_getitem (self_config self) "batch_size");
    n ← lift (py_len data);
    starts ← lift (py_range 0 n batch_size);
    results ← lift (for_each (_process_chunk data batch_size) starts []);
    self ← get_self;
    let m := self_metrics self in
    set_metrics {| processed := processed m + Z.of_nat (length results);
                   failed := failed m;
                   performance := performance m |};;
    snapshot ← get_metrics;
    mret {| success := true; data := VList results;
            error := None; metrics := Some snapshot |}.

(** [process]: the [try] block, and the handler of [except Exception]. *)
Definition process (data : value) (self : ImprovedProcessor)
  : ProcessingResult * ImprovedProcessor :=
  match process_try data self with
  | (Ok r, self') => (r, self')
  | (Raise e, self') =>
      let m := self_metrics self' in
      ({| success := false; data := VNone;
          error := Some (str_exception e); metrics := None |},
       {| self_config := self_config self';
          self_metrics := {| processed := processed m;
                             failed := failed m + 1;
                             performance := performance m |} |})
  end.

(** [ProcessorFactory.create_processor] *)
Definition create_processor (processor_type : string) : outcome ImprovedProcessor :=
  if String.eqb processor_type "improved" then Ok (__init__ None)
  else Raise (ValueError ("Unknown processor type: " +:+ processor_type)).

(** The script's own run: a processor from the factory, fed
    [list(range(100))]. *)
Definition main : outcome (ProcessingResult * ImprovedProcessor) :=
  processor ← create_processor "improved";
  test_data ← py_list (VRange 0 100 1);
  Ok (process test_data processor).

(** A sequence of calls on one instance, in order. *)
Fixpoint process_all (inputs : list value) (self : ImprovedProcessor)
  : list ProcessingResult * ImprovedProcessor :=
  match inputs with
  | [] => ([], self)
  | data :: rest =>
      let '(r, self') := process data self in
      let '(rs, self'') := process_all rest self' in
      (r :: rs, self'')
  end.


(** ** The vocabulary of the specification *)

(** The numbers of the value universe: integers, booleans (Python's [bool] is
    a subclass of [int]) and floats. *)
Inductive number : Type :=
| NInt (z : Z)
| NBool (b : bool)
| NFloat (f : float).

Definition number_value (x : number) : value :=
  match x with
  | NInt z => VInt z
  | NBool b => VBool b
  | NFloat f => VFloat f
  end.

(** The number a value is, if it is one. *)
Definition as_number (v : value) : option number :=
  match v with
  | VInt z => Some (NInt z)
  | VBool b => Some (NBool b)
  | VFloat f => Some (NFloat f)
  | _ => None
  end.

(** [x * 6 + 67] *)
Definition affine (x : number) : number :=
  match x with
  | NInt z => NInt (z * 6 + 67)
  | NBool b => NInt (Z.b2z b * 6 + 67)
  | NFloat f => NFloat (f * 6 + 67)%float
  end.

(** [y > 99] *)
Definition above_threshold (y : number) : bool :=
  match y with
  | NInt z => 99 <? z
  | NBool b => 99 <? Z.b2z b
  | NFloat f => PrimFloat.ltb 99 f
  end.

(** [[x*6+67 for x in S if x*6+67 > 99]] *)
Definition expected_data (S : list number) : list value :=
  (λ x, number_value (affine x))
    <$> List.filter (λ x, above_threshold (affine x)) S.

(** The integer the configuration gives as batch size, as [range] reads it. *)
Definition batch_size_of (self : ImprovedProcessor) : outcome Z :=
  v ← py_getitem (self_config self) "batch_size"; py_index v.

(** What [_process_batch] emits for the items [l]. *)
Definition emitted (l : list value) : list value := fold_left _process_item l [].

(** The items of a list or a tuple. *)
Definition sequence_items (v : value) : list value :=
  match v with VList l | VTuple l => l | _ => [] end.

(** The inputs [validate] accepts. *)
Definition nonempty_list_or_tuple (v : value) : bool :=
  match v with
  | VList (_ :: _) | VTuple (_ :: _) => true
  | _ => false
  end.

Definition validation_failed : ProcessingResult :=
  {| success := false; data := VNone;
     error := Some "Validation failed"; metrics := None |}.

Definition count_processed (self : ImprovedProcessor) (k : Z) : ImprovedProcessor :=
  {| self_config := self_config self;
     self_metrics := {| processed := processed (self_metrics self) + k;
                        failed := failed (self_metrics self);
                        performance := performance (self_metrics self) |} |}.

Definition count_failed (self : ImprovedProcessor) : ImprovedProcessor :=
  {| self_config := self_config self;
     self_metrics := {| processed := processed (self_metrics self);
                        failed := failed (self_metrics self) + 1;
                        performance := performance (self_metrics self) |} |}.

(** The number of results a call emitted: the length of [data] on success. *)
Definition emitted_count (r : ProcessingResult) : Z :=
  match data r with
  | VList l => Z.of_nat (length l)
  | _ => 0
  end.

(** What [get_metrics] reads off an instance. *)
Definition snapshot_of (self : ImprovedProcessor) : MetricsSnapshot :=
  {| total_processed := processed (self_metrics self);
     total_failed := failed (self_metrics self);
     success_rate := (processed (self_metrics self),
                      Z.max 1 (processed (self_metrics self)
                               + failed (self_metrics self)));
     config := self_config self |}.

(** The result of a call that emitted [results] and left the instance as
    [self]. *)
Definition success_result (self : ImprovedProcessor) (results : list value)
  : ProcessingResult :=
  {| success := true; data := VList results;
     error := None; metrics := Some (snapshot_of self) |}.

(** The result of a call that ended in the exception [e]. *)
Definition failure_result (e : exception) : ProcessingResult :=
  {| success := false; data := VNone;
     error := Some (str_exception e); metrics := None |}.

(** The starts of the batches and the step between them, as the call reads
    them from the configuration: the part of a call on a valid input that
    can raise. *)
Definition batch_starts (self : ImprovedProcessor) (n : Z) : outcome (list Z * Z) :=
  batch_size ← py_getitem (self_config self) "batch_size";
  step ← py_index batch_size;
  starts ← py_range 0 n batch_size;
  Ok (starts, step).

(** The built-in types Python documents as sequence types, among the values
    modelled: ordered, finite, indexable. *)
Definition is_sequence_type (v : value) : bool :=
  match v with
  | VStr _ | VList _ | VTuple _ | VRange _ _ _ => true
  | _ => false
  end.

(** The invalid inputs the specification lists: null, an empty sequence, a
    value that is no sequence. *)
Inductive invalid_input : value → Prop :=
| invalid_null : invalid_input VNone
| invalid_empty_sequence v :
    is_sequence_type v = true → py_len v = Ok 0 → invalid_input v
| invalid_non_sequence v :
    is_sequence_type v = false → invalid_input v.

(** The batches the loop of [process] cuts from the items [l] with the batch
    size [b]: the slices [l[i:i+b]] for [i] in [range(0, len(l), b)]. *)
Definition batches {A : Type} (l : list A) (b : Z) : list (list A) :=
  (λ i, slice_items l i (i + b)) <$> range_items 0 (Z.of_nat (length l)) b.

(** A failure result that comes from the handler of [process], not from
    validation: its error is not the fixed message of a validation failure. *)
Definition raised (r : ProcessingResult) : bool :=
  negb (success r)
  && negb (bool_decide (error r = Some "Validation failed")).

(** How many results of a list satisfy [p]. *)
Definition count_results (p : ProcessingResult → bool) (rs : list ProcessingResult) : Z :=
  Z.of_nat (length (List.filter p rs)).

(** * Properties *)

(** ** The per-item pipeline *)

Section Batch.

Lemma _process_item_app results item :
  _process_item results item = results ++ _process_item [] item.
Proof.
  unfold _process_item.
  destruct (_apply_transformation item) as [processed|e]; cbn;
    [|by rewrite app_nil_r].
  destruct (_validate_result processed) as [[]|e]; cbn;
    by rewrite ?app_nil_r.
Qed.

Lemma fold_process_item l : ∀ results,
  fold_left _process_item l results = results ++ emitted l.
Proof.
  unfold emitted.
  induction l as [|item l IH]; intros results; cbn.
  - by rewrite app_nil_r.
  - rewrite IH, (IH (_process_item [] item)), (_process_item_app results).
    by rewrite app_assoc.
Qed.

Lemma emitted_cons item l :
  emitted (item :: l) = _process_item [] item ++ emitted l.
Proof. unfold emitted at 1. cbn. apply fold_process_item. Qed.

Lemma emitted_app l1 l2 : emitted (l1 ++ l2) = emitted l1 ++ emitted l2.
Proof.
  unfold emitted at 1. rewrite fold_left_app.
  fold (emitted l1). apply fold_process_item.
Qed.

Lemma emitted_concat ls : emitted (mjoin ls) = mjoin (emitted <$> ls).
Proof.
  induction ls as [|l ls IH]; [done|].
  change (mjoin (l :: ls)) with (l ++ mjoin ls).
  by rewrite emitted_app, IH.
Qed.

(** A number goes through the transformation and the threshold test
    without an exception. *)
Lemma _process_item_number x :
  _process_item [] (number_value x) =
    if above_threshold (affine x) then [number_value (affine x)] else [].
Proof. by destruct x as [z|b|f]. Qed.

(** Anything else raises in the transformation and is dropped. *)
Lemma _apply_transformation_raises v :
  as_number v = None ↔ ∃ e, _apply_transformation v = Raise e.
Proof.
  destruct v; cbn; split; try done; try (intros [e He]; done);
    intros _; eexists; done.
Qed.

Lemma _process_item_not_number v :
  as_number v = None → _process_item [] v = [].
Proof.
  intros Hv. apply _apply_transformation_raises in Hv as [e He].
  unfold _process_item. by rewrite He.
Qed.

Lemma emitted_numbers S : emitted (number_value <$> S) = expected_data S.
Proof.
  unfold expected_data.
  induction S as [|x S IH]; [done|].
  rewrite fmap_cons, emitted_cons, _process_item_number, IH. cbn.
  by destruct (above_threshold (affine x)).
Qed.

End Batch.

(** ** Batching: the slices of the loop of [process] tile the input *)

Section Batching.
Context {A : Type}.
Implicit Types l : list A.

(** [m] consecutive chunks of width [b] cover a list of at most [m * b]
    items. *)
Lemma chunks_cover (b : nat) : ∀ (m : nat) l,
  (length l ≤ m * b)%nat →
  mjoin ((λ k : nat, take b (drop (k * b) l)) <$> seq 0 m) = l.
Proof.
  induction m as [|m IH]; intros l Hl.
  - destruct l; cbn in *; [done|lia].
  - cbn [seq]. rewrite <- fmap_S_seq, fmap_cons, <- list_fmap_compose.
    change (mjoin (?x :: ?xs)) with (x ++ mjoin xs).
    etrans; [|apply (take_drop b l)]. f_equal.
    etrans; [|apply (IH (drop b l)); rewrite length_drop; lia].
    f_equal. apply list_fmap_ext. intros _ k _. cbn.
    by rewrite drop_drop.
Qed.

(** The slice [l[k*b : k*b + b]] is the [k]-th chunk of width [b], also
    when it reaches or lies beyond the end of [l]. *)
Lemma slice_items_chunk l (k b : nat) :
  slice_items l (Z.of_nat (k * b)) (Z.of_nat (k * b) + Z.of_nat b)
  = take b (drop (k * b) l).
Proof.
  unfold slice_items, clamp_index. cbv zeta.
  destruct (Z.ltb_spec (Z.of_nat (k * b)) 0); [lia|].
  destruct (Z.ltb_spec (Z.of_nat (k * b) + Z.of_nat b) 0); [lia|].
  destruct (decide (k * b ≤ length l)%nat) as [Hin|Hout].
  - rewrite (Z.min_l (Z.of_nat (k * b))), Nat2Z.id by lia.
    destruct (decide (k * b + b ≤ length l)%nat).
    + rewrite Z.min_l by lia. f_equal. lia.
    + rewrite Z.min_r by lia.
      rewrite !take_ge; [done|rewrite length_drop; lia..].
  - rewrite !Z.min_r by lia.
    rewrite Z.sub_diag. cbn [Z.to_nat take].
    by rewrite (drop_ge l (k * b)), take_nil by lia.
Qed.

(** The starts [range(0, n, step)] produces, for a positive step, are
    enough to reach [n]. *)
Lemma range_len_reaches (n step : Z) :
  0 ≤ n → 0 < step → n ≤ range_len 0 n step * step ∧ 0 ≤ range_len 0 n step.
Proof.
  intros Hn Hstep. unfold range_len.
  destruct (Z.ltb_spec 0 step); [|lia].
  destruct (Z.ltb_spec 0 n); [|lia].
  rewrite Z.sub_0_r.
  pose proof (Z.mul_succ_div_gt (n - 1) step Hstep).
  pose proof (Z.div_pos (n - 1) step). lia.
Qed.

(** Cutting [l] at [range(0, len(l), step)] into slices of width [step]
    and joining the slices gives [l] back. *)
Lemma slices_cover l (step : Z) :
  0 < step →
  mjoin ((λ i, slice_items l i (i + step))
           <$> range_items 0 (Z.of_nat (length l)) step) = l.
Proof.
  intros Hstep. unfold range_items. rewrite <- list_fmap_compose.
  destruct (range_len_reaches (Z.of_nat (length l)) step) as [Hm Hm0];
    [lia..|].
  set (m := Z.to_nat (range_len 0 (Z.of_nat (length l)) step)) in *.
  set (b := Z.to_nat step).
  etrans; [|apply (chunks_cover b m l)].
  - f_equal. apply list_fmap_ext. intros _ k _. cbn.
    rewrite <- slice_items_chunk.
    replace (Z.of_nat k * step) with (Z.of_nat (k * b)) by lia.
    by replace (Z.of_nat b) with step by lia.
  - subst m b. nia.
Qed.

(** A negative step gives no start at all. *)
Lemma range_items_negative_step (n step : Z) :
  0 ≤ n → step < 0 → range_items 0 n step = [].
Proof.
  intros Hn Hstep. unfold range_items, range_len.
  destruct (Z.ltb_spec 0 step); [lia|].
  destruct (Z.ltb_spec step 0); [|lia].
  by destruct (Z.ltb_spec n 0); [lia|].
Qed.

End Batching.

(** ** One call of [process] *)

Section Process.
Implicit Types (self : ImprovedProcessor) (data : value).

Lemma validate_spec data self :
  validate data self = (Ok (nonempty_list_or_tuple data), self).
Proof. by destruct data as [| | | | |[]|[]| |]. Qed.

Lemma get_metrics_spec self : get_metrics self = (Ok (snapshot_of self), self).
Proof. done. Qed.

Lemma py_len_sequence data :
  isinstance_list_tuple data = true →
  py_len data = Ok (Z.of_nat (length (sequence_items data))).
Proof. by destruct data. Qed.

Lemma nonempty_is_sequence data :
  nonempty_list_or_tuple data = true → isinstance_list_tuple data = true.
Proof. by destruct data. Qed.

Lemma py_int_add_index i batch_size step :
  py_index batch_size = Ok step → py_int_add i batch_size = Ok (i + step).
Proof. destruct batch_size; cbn; intros H; by inversion H. Qed.

Lemma _process_chunk_sequence data batch_size step i results :
  isinstance_list_tuple data = true →
  py_index batch_size = Ok step →
  _process_chunk data batch_size i results
  = Ok (results ++ emitted (slice_items (sequence_items data) i (i + step))).
Proof.
  intros Hseq Hstep. unfold _process_chunk.
  rewrite (py_int_add_index _ _ step) by done. by destruct data.
Qed.

(** The loop over the batches never raises on a list or a tuple, and
    emits what the joined slices emit. *)
Lemma process_loop data batch_size step starts :
  isinstance_list_tuple data = true →
  py_index batch_size = Ok step →
  ∀ results,
    for_each (_process_chunk data batch_size) starts results
    = Ok (results ++ emitted (mjoin ((λ i, slice_items (sequence_items data) i (i + step))
                                       <$> starts))).
Proof.
  intros Hseq Hstep. induction starts as [|i starts IH]; intros results.
  - cbn. by rewrite app_nil_r.
  - cbn [for_each]. rewrite (_process_chunk_sequence _ _ step) by done.
    cbn [mbind outcome_bind]. rewrite IH, fmap_cons.
    change (mjoin (?x :: ?xs)) with (x ++ mjoin xs).
    by rewrite emitted_app, app_assoc.
Qed.

(** A call on a valid input, in one equation: it raises what reading the
    batch size or building the range raises, and otherwise succeeds with
    what the slices emit. *)
Lemma process_try_valid data self :
  nonempty_list_or_tuple data = true →
  process_try data self =
    let l := sequence_items data in
    match batch_starts self (Z.of_nat (length l)) with
    | Raise e => (Raise e, self)
    | Ok (starts, step) =>
        let results :=
          emitted (mjoin ((λ i, slice_items l i (i + step)) <$> starts)) in
        let self' := count_processed self (Z.of_nat (length results)) in
        (Ok (success_result self' results), self')
    end.
Proof.
  intros Hvalid. pose proof (nonempty_is_sequence _ Hvalid) as Hseq.
  unfold process_try, batch_starts, get_metrics, set_metrics, get_self, lift.
  unfold mbind, mret, M_bind, M_ret, outcome_bind. cbv beta.
  rewrite validate_spec, Hvalid. cbv beta iota. cbn [negb].
  destruct (py_getitem (self_config self) "batch_size") as [batch_size|e];
    [|done].
  rewrite py_len_sequence by done. unfold py_range, mbind, outcome_bind.
  destruct (py_index batch_size) as [step|e] eqn:Hstep; [|done].
  destruct (step =? 0); [done|].
  by rewrite (process_loop _ _ step).
Qed.

Lemma process_try_invalid data self :
  nonempty_list_or_tuple data = false →
  process_try data self = (Ok validation_failed, self).
Proof.
  intros Hinvalid. unfold process_try, mbind, M_bind.
  by rewrite validate_spec, Hinvalid.
Qed.

End Process.

Section Calls.
Implicit Types (self : ImprovedProcessor) (data : value).

Lemma process_invalid data self :
  nonempty_list_or_tuple data = false →
  process data self = (validation_failed, self).
Proof. intros H. unfold process. by rewrite process_try_invalid. Qed.

Lemma process_valid data self :
  nonempty_list_or_tuple data = true →
  process data self =
    let l := sequence_items data in
    match batch_starts self (Z.of_nat (length l)) with
    | Raise e => (failure_result e, count_failed self)
    | Ok (starts, step) =>
        let results :=
          emitted (mjoin ((λ i, slice_items l i (i + step)) <$> starts)) in
        let self' := count_processed self (Z.of_nat (length results)) in
        (success_result self' results, self')
    end.
Proof.
  intros H. unfold process. rewrite process_try_valid by done. cbv zeta.
  by destruct (batch_starts _ _) as [[starts step]|e].
Qed.

(** Every call ends in one of three ways. *)
Lemma process_cases data self :
  process data self = (validation_failed, self)
  ∨ (∃ e, process data self = (failure_result e, count_failed self))
  ∨ (∃ results,
       process data self
       = (success_result (count_processed self (Z.of_nat (length results))) results,
          count_processed self (Z.of_nat (length results)))).
Proof.
  destruct (nonempty_list_or_tuple data) eqn:Hvalid.
  - right. rewrite process_valid by done. cbv zeta.
    destruct (batch_starts _ _) as [[starts step]|e]; eauto.
  - left. by apply process_invalid.
Qed.

Lemma batch_starts_nonzero self n b :
  batch_size_of self = Ok b → b ≠ 0 →
  batch_starts self n = Ok (range_items 0 n b, b).
Proof.
  unfold batch_size_of, batch_starts, py_range. intros Hb Hnz.
  destruct (py_getitem _ _) as [batch_size|e]; [|done]. cbn in *.
  rewrite Hb. cbn. by destruct (Z.eqb_spec b 0).
Qed.

Lemma batch_starts_zero self n :
  batch_size_of self = Ok 0 →
  batch_starts self n = Raise (ValueError "range() arg 3 must not be zero").
Proof.
  unfold batch_size_of, batch_starts, py_range. intros Hb.
  destruct (py_getitem _ _) as [batch_size|e]; [|done]. cbn in *.
  by rewrite Hb.
Qed.

(** With a positive batch size the call emits what one pass over the whole
    input emits. *)
Lemma process_positive data self b :
  nonempty_list_or_tuple data = true →
  batch_size_of self = Ok b → 0 < b →
  process data self =
    let results := emitted (sequence_items data) in
    let self' := count_processed self (Z.of_nat (length results)) in
    (success_result self' results, self').
Proof.
  intros Hvalid Hb Hpos. rewrite process_valid by done. cbv zeta.
  rewrite (batch_starts_nonzero _ _ b) by (done || lia).
  by rewrite slices_cover.
Qed.

Lemma count_processed_0 self : count_processed self 0 = self.
Proof.
  destruct self as [c [p f perf]]. unfold count_processed. cbn.
  by rewrite Z.add_0_r.
Qed.

Lemma emitted_as_number l : emitted l = expected_data (omap as_number l).
Proof.
  rewrite <- emitted_numbers.
  induction l as [|item l IH]; [done|].
  rewrite emitted_cons, IH. cbn [omap list_omap].
  destruct (as_number item) as [x|] eqn:Hx.
  - rewrite fmap_cons, emitted_cons. f_equal.
    by destruct item; inversion Hx.
  - by rewrite _process_item_not_number.
Qed.

Lemma process_all_monotone inputs : ∀ self,
  processed (self_metrics self)
    ≤ processed (self_metrics (process_all inputs self).2)
  ∧ failed (self_metrics self)
    ≤ failed (self_metrics (process_all inputs self).2).
Proof.
  induction inputs as [|data inputs IH]; intros self; [done|].
  cbn [process_all].
  destruct (process data self) as [r self'] eqn:Hcall.
  specialize (IH self').
  destruct (process_all inputs self') as [rs self''] eqn:Hrest.
  cbn in *.
  assert (processed (self_metrics self) ≤ processed (self_metrics self')
          ∧ failed (self_metrics self) ≤ failed (self_metrics self'))
    as [? ?]; [|lia].
  destruct (process_cases data self) as [H|[[e H]|[results H]]];
    rewrite H in Hcall; inversion Hcall; subst; cbn; lia.
Qed.

Lemma process_all_sum inputs : ∀ self,
  Forall (λ r, success r = true) (process_all inputs self).1 →
  processed (self_metrics (process_all inputs self).2)
  = processed (self_metrics self)
    + foldr Z.add 0 (emitted_count <$> (process_all inputs self).1)
  ∧ failed (self_metrics (process_all inputs self).2)
    = failed (self_metrics self).
Proof.
  induction inputs as [|data inputs IH]; intros self.
  - cbn. lia.
  - cbn [process_all].
    destruct (process data self) as [r self'] eqn:Hcall.
    specialize (IH self').
    destruct (process_all inputs self') as [rs self''] eqn:Hrest.
    cbn. intros [Hr Hrs]%Forall_cons. destruct (IH Hrs) as [IHp IHf].
    cbn in IHp, IHf. rewrite IHp, IHf.
    destruct (process_cases data self) as [H|[[e H]|[results H]]];
      rewrite H in Hcall; inversion Hcall; subst; try done.
    unfold emitted_count. cbn. lia.
Qed.

End Calls.

(** * The properties of the specification *)

(** Reads the fields of the result of a successful call. *)
Ltac read_result :=
  cbv zeta; unfold success_result;
  cbn [fst snd success data error metrics sequence_items].

(** ** Transform and filter *)

(** C1.  For every non-empty list [S] of numbers, on a processor whose batch
    size is a positive integer, [process(S)] succeeds and its data is
    [[x*6+67 for x in S if x*6+67 > 99]]: every element goes through
    [x * 6 + 67], the values above 99 are kept, in the order of [S]. *)
Theorem process_numbers (self : ImprovedProcessor) (S : list number) (b : Z) :
  S ≠ [] →
  batch_size_of self = Ok b → 0 < b →
  success (process (VList (number_value <$> S)) self).1 = true
  ∧ data (process (VList (number_value <$> S)) self).1 = VList (expected_data S).
Proof.
  intros HS Hb Hpos.
  rewrite (process_positive _ _ b) by (done || by destruct S).
  read_result.
  by rewrite emitted_numbers.
Qed.

Lemma process_numbers_witness :
  let self := __init__ None in
  let S := [NInt 5; NInt 6; NFloat 7.5; NBool true; NInt 100] in
  success (process (VList (number_value <$> S)) self).1 = true
  ∧ data (process (VList (number_value <$> S)) self).1
    = VList [VInt 103; VFloat 112; VInt 667].
Proof.
  apply (process_numbers (__init__ None)
           [NInt 5; NInt 6; NFloat 7.5; NBool true; NInt 100] 97);
    [done|reflexivity|lia].
Defined.

(** ** Validation failure *)

Lemma invalid_input_rejected data :
  invalid_input data → nonempty_list_or_tuple data = false.
Proof.
  intros [|v Hseq Hlen|v Hseq]; [done|..].
  - destruct v as [| | | | |[]|[]| |]; done.
  - by destruct v.
Qed.

(** C2.  For every invalid input (null, an empty sequence, a value that is no
    sequence), [process] returns a result with [success == false],
    [error == "Validation failed"] and no data, and leaves the instance, so
    the counters [processed] and [failed], exactly as it was. *)
Theorem process_invalid_input (self : ImprovedProcessor) (input : value) :
  invalid_input input →
  success (process input self).1 = false
  ∧ error (process input self).1 = Some "Validation failed"
  ∧ data (process input self).1 = VNone
  ∧ (process input self).2 = self.
Proof.
  intros Hinvalid. by rewrite process_invalid by by apply invalid_input_rejected.
Qed.

Lemma process_invalid_input_witness :
  let self := __init__ None in
  invalid_input (VTuple [])
  ∧ success (process (VTuple []) self).1 = false
  ∧ error (process (VTuple []) self).1 = Some "Validation failed"
  ∧ data (process (VTuple []) self).1 = VNone
  ∧ (process (VTuple []) self).2 = self.
Proof.
  assert (invalid_input (VTuple [])) as H by (by apply invalid_empty_sequence).
  split; [exact H|exact (process_invalid_input (__init__ None) (VTuple []) H)].
Defined.

(** ** Batching *)

(** C3.  For every valid input (a non-empty list, or tuple) and any two
    positive integer batch sizes, a processor configured with the one and a
    processor configured with the other produce the same data: cutting the
    input into batches has no effect on the output. *)
Theorem batch_size_irrelevant
    (self1 self2 : ImprovedProcessor) (input : value) (b1 b2 : Z) :
  nonempty_list_or_tuple input = true →
  batch_size_of self1 = Ok b1 → 0 < b1 →
  batch_size_of self2 = Ok b2 → 0 < b2 →
  data (process input self1).1 = data (process input self2).1.
Proof.
  intros Hvalid Hb1 Hpos1 Hb2 Hpos2.
  by rewrite (process_positive _ self1 b1), (process_positive _ self2 b2).
Qed.

Lemma batch_size_irrelevant_witness :
  let input := VList (VInt <$> [0; 5; 6; 7; 12; 40; 2]) in
  data (process input (__init__ (Some {[ "batch_size" := VInt 2 ]}))).1
  = data (process input (__init__ (Some {[ "batch_size" := VInt 5 ]}))).1.
Proof.
  apply (batch_size_irrelevant
           (__init__ (Some {[ "batch_size" := VInt 2 ]}))
           (__init__ (Some {[ "batch_size" := VInt 5 ]}))
           (VList (VInt <$> [0; 5; 6; 7; 12; 40; 2])) 2 5);
    reflexivity.
Defined.

(** ** Metrics *)

(** C4.  The counters of an instance never decrease, over one call and over
    every sequence of calls; and after a sequence of calls on a fresh
    instance that all succeed, the total processed count that [get_metrics]
    reports is the sum of the numbers of results the calls emitted. *)
Theorem metrics_accumulate :
  (∀ (input : value) (self : ImprovedProcessor),
     processed (self_metrics self) ≤ processed (self_metrics (process input self).2)
     ∧ failed (self_metrics self) ≤ failed (self_metrics (process input self).2))
  ∧ (∀ (inputs : list value) (self : ImprovedProcessor),
       processed (self_metrics self)
         ≤ processed (self_metrics (process_all inputs self).2)
       ∧ failed (self_metrics self)
         ≤ failed (self_metrics (process_all inputs self).2))
  ∧ (∀ (cfg : option (gmap string value)) (inputs : list value),
       Forall (λ r, success r = true) (process_all inputs (__init__ cfg)).1 →
       total_processed <$> (get_metrics (process_all inputs (__init__ cfg)).2).1
       = Ok (foldr Z.add 0 (emitted_count <$> (process_all inputs (__init__ cfg)).1))).
Proof.
  split; [|split].
  - intros input self.
    pose proof (process_all_monotone [input] self) as H. cbn in H.
    by destruct (process input self).
  - intros inputs self. apply process_all_monotone.
  - intros cfg inputs Hok.
    rewrite get_metrics_spec. cbn.
    destruct (process_all_sum inputs (__init__ cfg) Hok) as [-> _].
    by cbn.
Qed.

Lemma metrics_accumulate_witness :
  let inputs := [VList (VInt <$> [1; 6; 7]); VTuple [VInt 50]; VList [VInt 9; VNone]] in
  total_processed <$> (get_metrics (process_all inputs (__init__ None)).2).1
  = Ok (2 + (1 + (1 + 0))).
Proof.
  refine (proj2 (proj2 metrics_accumulate) None
            [VList (VInt <$> [1; 6; 7]); VTuple [VInt 50]; VList [VInt 9; VNone]] _).
  vm_compute. repeat constructor.
Defined.

(** ** The handler at the call boundary *)

(** C5.  [process] returns a result on every input and every instance, and
    never an exception: either the [try] block returns, and the call returns
    what it returned; or an exception leaves the [try] block, and the call
    returns a failure result whose error is the description of the
    exception, with the failed counter one higher and nothing else of the
    instance changed. *)
Theorem process_catches (self : ImprovedProcessor) (input : value) :
  (∃ r self',
     process_try input self = (Ok r, self')
     ∧ process input self = (r, self'))
  ∨ (∃ e,
       process_try input self = (Raise e, self)
       ∧ process input self
         = ({| success := false; data := VNone;
               error := Some (str_exception e); metrics := None |},
            {| self_config := self_config self;
               self_metrics :=
                 {| processed := processed (self_metrics self);
                    failed := failed (self_metrics self) + 1;
                    performance := performance (self_metrics self) |} |})).
Proof.
  unfold process.
  destruct (nonempty_list_or_tuple input) eqn:Hvalid.
  - rewrite process_try_valid by done. cbv zeta.
    destruct (batch_starts _ _) as [[starts step]|e]; [left|right]; eauto.
  - rewrite process_try_invalid by done. left. eauto.
Qed.

(** The exceptions that do leave the [try] block: a configuration without
    batch size, and a batch size [range] refuses. *)
Example process_missing_batch_size :
  process (VList [VInt 10]) (__init__ (Some {[ "chunk" := VInt 4 ]}))
  = ({| success := false; data := VNone;
        error := Some "'batch_size'"; metrics := None |},
     {| self_config := {[ "chunk" := VInt 4 ]};
        self_metrics := {| processed := 0; failed := 1; performance := [] |} |}).
Proof. reflexivity. Qed.

Example process_float_batch_size :
  error (process (VList [VInt 10]) (__init__ (Some {[ "batch_size" := VFloat 2.5 ]}))).1
  = Some "'float' object cannot be interpreted as an integer".
Proof. reflexivity. Qed.

(** ** Validation *)

(** C6, as the program has it.  [validate] never raises, returns true
    exactly on a list or a tuple of length at least 1, returns the same
    answer on every instance and leaves the instance as it was; in
    particular [validate(None)] and [validate([])] are false and
    [validate([1,2,3])] is true. *)
Theorem validate_list_or_tuple :
  (∀ (input : value) (self : ImprovedProcessor),
     ∃ ok : bool,
       validate input self = (Ok ok, self)
       ∧ (ok = true ↔
          ∃ l, (input = VList l ∨ input = VTuple l) ∧ (1 ≤ length l)%nat))
  ∧ (∀ (input : value) (self1 self2 : ImprovedProcessor),
       (validate input self1).1 = (validate input self2).1)
  ∧ (∀ self : ImprovedProcessor,
       (validate VNone self).1 = Ok false
       ∧ (validate (VList []) self).1 = Ok false
       ∧ (validate (VList [VInt 1; VInt 2; VInt 3]) self).1 = Ok true).
Proof.
  split; [|split].
  - intros input self. exists (nonempty_list_or_tuple input).
    split; [apply validate_spec|].
    destruct input as [| | | | |[|x l]|[|x l]| |]; cbn; split; try done;
      try (intros (l' & [?|?] & Hlen); simplify_eq; cbn in Hlen; lia);
      intros _; eexists; (split; [by (left + right)|cbn; lia]).
  - intros input self1 self2. by rewrite !validate_spec.
  - done.
Qed.

(** C6, as stated, fails: a [range] is a non-null ordered finite sequence
    type of length 3 (and so is the string ["abc"]), and [validate] returns
    false on it. *)
Lemma validate_rejects_range :
  VRange 0 3 1 ≠ VNone
  ∧ is_sequence_type (VRange 0 3 1) = true
  ∧ py_len (VRange 0 3 1) = Ok 3
  ∧ validate (VRange 0 3 1) (__init__ None) = (Ok false, __init__ None)
  ∧ is_sequence_type (VStr "abc") = true
  ∧ py_len (VStr "abc") = Ok 3
  ∧ validate (VStr "abc") (__init__ None) = (Ok false, __init__ None).
Proof. repeat split; done. Qed.

(** ** Items that cannot be transformed *)

(** C7.  On a valid input some of whose items cannot be transformed, with a
    positive batch size: the items whose transformation raises are exactly
    those that are no numbers; the call succeeds all the same, and its data
    is the filtered transforms of the remaining items, in order. *)
Theorem failing_items_skipped (self : ImprovedProcessor) (l : list value) (b : Z) :
  l ≠ [] →
  batch_size_of self = Ok b → 0 < b →
  (∀ item, as_number item = None ↔ ∃ e, _apply_transformation item = Raise e)
  ∧ success (process (VList l) self).1 = true
  ∧ data (process (VList l) self).1 = VList (expected_data (omap as_number l)).
Proof.
  intros Hl Hb Hpos. split; [apply _apply_transformation_raises|].
  rewrite (process_positive _ _ b) by (done || by destruct l).
  read_result.
  by rewrite emitted_as_number.
Qed.

Lemma failing_items_skipped_witness :
  let self := __init__ (Some {[ "batch_size" := VInt 2 ]}) in
  let l := [VInt 10; VNone; VStr "a"; VInt 1; VList [VInt 50]; VFloat 8] in
  (∀ item, as_number item = None ↔ ∃ e, _apply_transformation item = Raise e)
  ∧ success (process (VList l) self).1 = true
  ∧ data (process (VList l) self).1 = VList [VInt 127; VFloat 115].
Proof.
  apply (failing_items_skipped
           (__init__ (Some {[ "batch_size" := VInt 2 ]}))
           [VInt 10; VNone; VStr "a"; VInt 1; VList [VInt 50]; VFloat 8] 2);
    [done|reflexivity|lia].
Defined.

(** ** The script's own run *)

(** C8.  A processor from the factory, with the default configuration, fed
    [list(range(100))]: the call succeeds with the 94 values [6*x+67] for
    [x] from 6 to 99, the first 103 and the last 661, and the metrics in
    that same result report 94 processed. *)
Theorem main_scenario :
  ∃ (r : ProcessingResult) (self' : ImprovedProcessor) (results : list value),
    main = Ok (r, self')
    ∧ success r = true
    ∧ data r = VList results
    ∧ results = (λ x, VInt (6 * x + 67)) <$> range_items 6 100 1
    ∧ length results = 94%nat
    ∧ head results = Some (VInt 103)
    ∧ last results = Some (VInt 661)
    ∧ total_processed <$> metrics r = Some 94.
Proof.
  assert (∃ test_data, main = Ok (process test_data (__init__ None))
                       ∧ py_list (VRange 0 100 1) = Ok test_data)
    as (test_data & Hmain & Hdata) by (eexists; split; reflexivity).
  exists (process test_data (__init__ None)).1,
         (process test_data (__init__ None)).2,
         ((λ x, VInt (6 * x + 67)) <$> range_items 6 100 1).
  split; [by rewrite <- surjective_pairing|].
  inversion Hdata; subst test_data.
  repeat split; vm_compute; reflexivity.
Qed.

(** ** Batch sizes that are not positive *)

(** C9.  With a batch size of zero, every valid input ends in a failure
    result: no data, the error the description of the [ValueError] that
    [range] raises for a zero step, and the failed counter one higher. *)
Theorem zero_batch_size_fails (self : ImprovedProcessor) (input : value) :
  nonempty_list_or_tuple input = true →
  batch_size_of self = Ok 0 →
  process input self
  = ({| success := false; data := VNone;
        error := Some "range() arg 3 must not be zero"; metrics := None |},
     {| self_config := self_config self;
        self_metrics := {| processed := processed (self_metrics self);
                           failed := failed (self_metrics self) + 1;
                           performance := performance (self_metrics self) |} |}).
Proof.
  intros Hvalid Hb. rewrite process_valid by done. cbv zeta.
  by rewrite batch_starts_zero.
Qed.

Lemma zero_batch_size_fails_witness :
  process (VList [VInt 10; VInt 20])
          (__init__ (Some {[ "batch_size" := VInt 0 ]}))
  = ({| success := false; data := VNone;
        error := Some "range() arg 3 must not be zero"; metrics := None |},
     {| self_config := {[ "batch_size" := VInt 0 ]};
        self_metrics := {| processed := 0; failed := 1; performance := [] |} |}).
Proof.
  exact (zero_batch_size_fails
           (__init__ (Some {[ "batch_size" := VInt 0 ]}))
           (VList [VInt 10; VInt 20]) eq_refl eq_refl).
Defined.

(** C10.  With a negative batch size, every valid input ends in a success
    result with an empty list as data and no error: the loop over the
    batches runs no turn, the processed counter grows by 0, and the
    instance is left as it was. *)
Theorem negative_batch_size_empty
    (self : ImprovedProcessor) (input : value) (b : Z) :
  nonempty_list_or_tuple input = true →
  batch_size_of self = Ok b → b < 0 →
  batch_starts self (Z.of_nat (length (sequence_items input))) = Ok ([], b)
  ∧ process input self
    = ({| success := true; data := VList [];
          error := None; metrics := Some (snapshot_of self) |},
       self).
Proof.
  intros Hvalid Hb Hneg.
  assert (batch_starts self (Z.of_nat (length (sequence_items input)))
          = Ok ([], b)) as Hstarts.
  { rewrite (batch_starts_nonzero _ _ b) by (done || lia).
    by rewrite range_items_negative_step by lia. }
  split; [done|].
  rewrite process_valid by done. cbv zeta. rewrite Hstarts.
  cbn. by rewrite count_processed_0.
Qed.

Lemma negative_batch_size_empty_witness :
  let self := __init__ (Some {[ "batch_size" := VInt (-3) ]}) in
  batch_starts self 2 = Ok ([], -3)
  ∧ process (VList [VInt 10; VInt 20]) self
    = ({| success := true; data := VList [];
          error := None; metrics := Some (snapshot_of self) |},
       self).
Proof.
  apply (negative_batch_size_empty
           (__init__ (Some {[ "batch_size" := VInt (-3) ]}))
           (VList [VInt 10; VInt 20]) (-3));
    [reflexivity|reflexivity|lia].
Defined.

(** * Further properties of the code *)

(** ** What decides the outcome of a call *)

Section Outcome.
Implicit Types (self : ImprovedProcessor) (input : value).

Lemma batch_starts_config self1 self2 n :
  self_config self1 = self_config self2 →
  batch_starts self1 n = batch_starts self2 n.
Proof. unfold batch_starts. by intros ->. Qed.

(** When the starts are built, the batch size is a non-zero integer and the
    starts are those of the range. *)
Lemma batch_starts_ok self n starts step :
  batch_starts self n = Ok (starts, step) →
  batch_size_of self = Ok step ∧ step ≠ 0 ∧ starts = range_items 0 n step.
Proof.
  unfold batch_starts, batch_size_of, py_range.
  destruct (py_getitem _ _) as [batch_size|e]; [|done]. cbn.
  destruct (py_index batch_size) as [s|e]; [|done]. cbn.
  destruct (Z.eqb_spec s 0); [done|].
  intros H. by inversion H; subst.
Qed.

Lemma batch_starts_raises self n e :
  batch_starts self n = Raise e →
  (batch_size_of self = Raise e
   ∨ (batch_size_of self = Ok 0
      ∧ e = ValueError "range() arg 3 must not be zero")).
Proof.
  unfold batch_starts, batch_size_of, py_range.
  destruct (py_getitem _ _) as [batch_size|e']; cbn; [|intros [= ->]; by left].
  destruct (py_index batch_size) as [s|e']; cbn; [|intros [= ->]; by left].
  destruct (Z.eqb_spec s 0); [|done].
  intros H. inversion H; subst. by right.
Qed.

(** The description of an exception that leaves the [try] block is never
    the message of a validation failure. *)
Lemma batch_starts_message self n e :
  batch_starts self n = Raise e → str_exception e ≠ "Validation failed".
Proof.
  intros [H|[_ ->]]%batch_starts_raises; [|done].
  unfold batch_size_of, py_getitem in H.
  destruct (self_config self !! "batch_size") as [v|]; cbn in H.
  - destruct v; inversion H; done.
  - by inversion H.
Qed.

(** The data of a call on a valid input, by the sign of the step. *)
Lemma process_nonzero input self step :
  nonempty_list_or_tuple input = true →
  batch_size_of self = Ok step → step ≠ 0 →
  process input self =
    let results :=
      if 0 <? step then emitted (sequence_items input) else [] in
    let self' := count_processed self (Z.of_nat (length results)) in
    (success_result self' results, self').
Proof.
  intros Hvalid Hstep Hnz. destruct (Z.ltb_spec 0 step).
  - by apply (process_positive _ _ step).
  - rewrite process_valid by done. cbv zeta.
    rewrite (batch_starts_nonzero _ _ step) by done.
    by rewrite range_items_negative_step by lia.
Qed.

Lemma emitted_length l : (length (emitted l) ≤ length l)%nat.
Proof.
  induction l as [|item l IH]; [done|].
  rewrite emitted_cons, length_app. cbn [length].
  assert (length (_process_item [] item) ≤ 1)%nat; [|lia].
  unfold _process_item.
  destruct (_apply_transformation item) as [y|e]; cbn; [|lia].
  destruct (_validate_result y) as [[]|e]; cbn; lia.
Qed.

Lemma emitted_above l :
  Forall (λ y, _validate_result y = Ok true) (emitted l).
Proof.
  induction l as [|item l IH]; [constructor|].
  rewrite emitted_cons. apply Forall_app. split; [|done].
  unfold _process_item.
  destruct (_apply_transformation item) as [y|e]; cbn; [|constructor].
  destruct (_validate_result y) as [[]|e] eqn:Hy; cbn;
    repeat constructor; done.
Qed.

Lemma emitted_from l :
  Forall (λ y, ∃ item, item ∈ l ∧ _apply_transformation item = Ok y) (emitted l).
Proof.
  induction l as [|item l IH]; [constructor|].
  rewrite emitted_cons. apply Forall_app. split.
  - unfold _process_item.
    destruct (_apply_transformation item) as [y|e] eqn:Hitem; cbn;
      [|constructor].
    destruct (_validate_result y) as [[]|e]; cbn; repeat constructor.
    exists item. split; [left|done].
  - eapply Forall_impl; [exact IH|].
    intros y (item' & Hin & Hy). exists item'. split; [by right|done].
Qed.

End Outcome.

Lemma process_success_inv (self : ImprovedProcessor) (input : value) :
  success (process input self).1 = true →
  nonempty_list_or_tuple input = true
  ∧ ∃ step, batch_size_of self = Ok step ∧ step ≠ 0.
Proof.
  intros Hok. destruct (nonempty_list_or_tuple input) eqn:Hvalid.
  - split; [done|]. rewrite process_valid in Hok by done. cbv zeta in Hok.
    destruct (batch_starts _ _) as [[starts step]|e] eqn:Hstarts; [|done].
    apply batch_starts_ok in Hstarts as (? & ? & _). eauto.
  - by rewrite process_invalid in Hok.
Qed.

(** X1.  A call succeeds exactly when the input is a non-empty list or tuple
    and the configured batch size is a non-zero integer: nothing about the
    items or about earlier calls can make it fail. *)
Theorem process_succeeds_iff (self : ImprovedProcessor) (input : value) :
  success (process input self).1 = true
  ↔ nonempty_list_or_tuple input = true
    ∧ ∃ step, batch_size_of self = Ok step ∧ step ≠ 0.
Proof.
  split; [apply process_success_inv|].
  - intros (Hvalid & step & Hstep & Hnz).
    by rewrite (process_nonzero _ _ step).
Qed.

(** X2.  What a successful call returns: a list no longer than the input,
    each of its values the transform of an item of the input and above the
    threshold, together with a metrics snapshot whose processed count is
    the count before the call plus the length of that list. *)
Theorem success_data_bounded (self : ImprovedProcessor) (input : value) :
  success (process input self).1 = true →
  ∃ results snapshot,
    data (process input self).1 = VList results
    ∧ (length results ≤ length (sequence_items input))%nat
    ∧ Forall (λ y, _validate_result y = Ok true
                   ∧ ∃ item, item ∈ sequence_items input
                             ∧ _apply_transformation item = Ok y) results
    ∧ metrics (process input self).1 = Some snapshot
    ∧ total_processed snapshot
      = processed (self_metrics self) + Z.of_nat (length results)
    ∧ total_failed snapshot = failed (self_metrics self).
Proof.
  intros (Hvalid & step & Hstep & Hnz)%process_success_inv.
  rewrite (process_nonzero _ _ step) by done. cbv zeta.
  eexists _, _. split; [reflexivity|].
  split; [|split; [|split; [reflexivity|done]]].
  - destruct (0 <? step); [apply emitted_length|cbn; lia].
  - destruct (0 <? step); [|constructor].
    apply Forall_and. split; [apply emitted_above|apply emitted_from].
Qed.

Lemma success_data_bounded_witness :
  ∃ results snapshot,
    data (process (VList [VInt 1; VNone; VInt 9]) (__init__ None)).1 = VList results
    ∧ (length results ≤ 3)%nat
    ∧ Forall (λ y, _validate_result y = Ok true
                   ∧ ∃ item, item ∈ [VInt 1; VNone; VInt 9]
                             ∧ _apply_transformation item = Ok y) results
    ∧ metrics (process (VList [VInt 1; VNone; VInt 9]) (__init__ None)).1
      = Some snapshot
    ∧ total_processed snapshot = 0 + Z.of_nat (length results)
    ∧ total_failed snapshot = 0.
Proof.
  exact (success_data_bounded (__init__ None)
           (VList [VInt 1; VNone; VInt 9]) eq_refl).
Defined.

(** X3.  The shape of every result: either success with a list as data, no
    error and a metrics snapshot; or failure with no data, an error message
    and no metrics. *)
Theorem result_shape (self : ImprovedProcessor) (input : value) :
  (success (process input self).1 = true
   ∧ (∃ results, data (process input self).1 = VList results)
   ∧ error (process input self).1 = None
   ∧ is_Some (metrics (process input self).1))
  ∨ (success (process input self).1 = false
     ∧ data (process input self).1 = VNone
     ∧ is_Some (error (process input self).1)
     ∧ metrics (process input self).1 = None).
Proof.
  destruct (process_cases input self) as [H|[[e H]|[results H]]]; rewrite H.
  - right. cbn. eauto.
  - right. cbn. eauto.
  - left. cbn. eauto.
Qed.

(** X4.  A call's verdict does not depend on the counters: two instances
    with the same configuration return the same success flag, data and
    error on the same input, whatever calls each has served before. *)
Theorem process_ignores_counters
    (self1 self2 : ImprovedProcessor) (input : value) :
  self_config self1 = self_config self2 →
  success (process input self1).1 = success (process input self2).1
  ∧ data (process input self1).1 = data (process input self2).1
  ∧ error (process input self1).1 = error (process input self2).1.
Proof.
  intros Hconfig. destruct (nonempty_list_or_tuple input) eqn:Hvalid.
  - rewrite !process_valid by done. cbv zeta.
    rewrite (batch_starts_config self1 self2) by done.
    by destruct (batch_starts self2 _) as [[starts step]|e].
  - by rewrite !process_invalid.
Qed.

Lemma process_ignores_counters_witness :
  let fresh := __init__ None in
  let used := (process (VList [VInt 7; VInt 8]) (__init__ (Some {[ "batch_size" := VInt 0 ]}))).2 in
  let used := {| self_config := self_config fresh; self_metrics := self_metrics used |} in
  failed (self_metrics used) = 1
  ∧ success (process (VList [VInt 50]) fresh).1
    = success (process (VList [VInt 50]) used).1
  ∧ data (process (VList [VInt 50]) fresh).1
    = data (process (VList [VInt 50]) used).1
  ∧ error (process (VList [VInt 50]) fresh).1
    = error (process (VList [VInt 50]) used).1.
Proof.
  split; [reflexivity|].
  exact (process_ignores_counters (__init__ None)
           {| self_config := self_config (__init__ None);
              self_metrics := {| processed := 0; failed := 1; performance := [] |} |}
           (VList [VInt 50]) eq_refl).
Defined.


(** ** What a sequence of calls does to the instance *)

(** X6.  No sequence of calls changes the configuration of the instance or
    its [performance] list: the two counters are all that ever moves. *)
Theorem process_all_keeps_config (inputs : list value) (self : ImprovedProcessor) :
  self_config (process_all inputs self).2 = self_config self
  ∧ performance (self_metrics (process_all inputs self).2)
    = performance (self_metrics self).
Proof.
  revert self. induction inputs as [|input inputs IH]; intros self; [done|].
  cbn [process_all].
  destruct (process input self) as [r self'] eqn:Hcall.
  specialize (IH self').
  destruct (process_all inputs self') as [rs self''].
  cbn in *. destruct IH as [-> ->].
  destruct (process_cases input self) as [H|[[e H]|[results H]]];
    rewrite H in Hcall; by inversion Hcall.
Qed.

Lemma process_counts input self :
  processed (self_metrics (process input self).2)
  = processed (self_metrics self) + emitted_count (process input self).1
  ∧ failed (self_metrics (process input self).2)
    = failed (self_metrics self)
      + (if raised (process input self).1 then 1 else 0).
Proof.
  destruct (nonempty_list_or_tuple input) eqn:Hvalid.
  - rewrite process_valid by done. cbv zeta.
    destruct (batch_starts _ _) as [[starts step]|e] eqn:Hstarts.
    + unfold emitted_count, raised. cbn. lia.
    + apply batch_starts_message in Hstarts.
      unfold emitted_count, raised. cbn.
      rewrite bool_decide_eq_false_2 by congruence. cbn. lia.
  - rewrite process_invalid by done. unfold emitted_count, raised. cbn.
    rewrite bool_decide_eq_true_2 by done. cbn. lia.
Qed.

(** X7.  The counters after any sequence of calls, whatever their outcomes:
    [processed] has grown by the total number of values the calls returned,
    and [failed] by the number of calls that ended in the exception handler;
    a call that failed validation moves neither. *)
Theorem counters_count_calls (inputs : list value) (self : ImprovedProcessor) :
  processed (self_metrics (process_all inputs self).2)
  = processed (self_metrics self)
    + foldr Z.add 0 (emitted_count <$> (process_all inputs self).1)
  ∧ failed (self_metrics (process_all inputs self).2)
    = failed (self_metrics self)
      + count_results raised (process_all inputs self).1.
Proof.
  revert self. induction inputs as [|input inputs IH]; intros self.
  - unfold count_results. cbn. lia.
  - cbn [process_all].
    pose proof (process_counts input self) as [Hp Hf].
    destruct (process input self) as [r self'] eqn:Hcall.
    specialize (IH self').
    destruct (process_all inputs self') as [rs self''].
    cbn in *. destruct IH as [-> ->]. rewrite Hp, Hf.
    unfold count_results. cbn [List.filter].
    destruct (raised r); cbn [length]; lia.
Qed.

(** X8.  The snapshot [get_metrics] gives after any sequence of calls on a
    fresh instance: both totals are non-negative, the denominator of the
    success rate is at least 1 (so the division is defined also before the
    first call), the rate lies between 0 and 1, and reading the snapshot
    leaves the instance as it is. *)
Theorem success_rate_bounds
    (cfg : option (gmap string value)) (inputs : list value) :
  ∃ snapshot,
    get_metrics (process_all inputs (__init__ cfg)).2
    = (Ok snapshot, (process_all inputs (__init__ cfg)).2)
    ∧ 0 ≤ total_processed snapshot
    ∧ 0 ≤ total_failed snapshot
    ∧ (success_rate snapshot).1 = total_processed snapshot
    ∧ (success_rate snapshot).2
      = Z.max 1 (total_processed snapshot + total_failed snapshot)
    ∧ 0 ≤ (success_rate snapshot).1 ≤ (success_rate snapshot).2
    ∧ 1 ≤ (success_rate snapshot).2.
Proof.
  eexists. split; [apply get_metrics_spec|].
  destruct (process_all_monotone inputs (__init__ cfg)) as [Hp Hf].
  cbn in *. lia.
Qed.

(** ** The threshold, on integers *)

Lemma _process_item_integer x :
  _process_item [] (VInt x) = if 6 <=? x then [VInt (x * 6 + 67)] else [].
Proof.
  unfold _process_item. cbn.
  destruct (Z.ltb_spec 99 (x * 6 + 67)), (Z.leb_spec 6 x); done || lia.
Qed.

(** X9.  On integers the threshold falls between 5 and 6: from a batch of
    integers [_process_batch] returns [x * 6 + 67] for exactly the items
    [x >= 6], in order, and drops the others without an error; from a batch
    of booleans it returns nothing. *)
Theorem integer_threshold :
  (∀ xs : list Z,
     _process_batch (VList (VInt <$> xs))
     = Ok ((λ x, VInt (x * 6 + 67)) <$> List.filter (λ x, 6 <=? x) xs))
  ∧ (∀ bs : list bool, _process_batch (VList (VBool <$> bs)) = Ok []).
Proof.
  split.
  - intros xs. unfold _process_batch. cbn. f_equal. fold (emitted (VInt <$> xs)).
    induction xs as [|x xs IH]; [done|].
    rewrite fmap_cons, emitted_cons, _process_item_integer, IH. cbn.
    by destruct (6 <=? x).
  - intros bs. unfold _process_batch. cbn. f_equal. fold (emitted (VBool <$> bs)).
    induction bs as [|b bs IH]; [done|].
    rewrite fmap_cons, emitted_cons, IH. by destruct b.
Qed.

(** ** Inputs put together *)

(** X10.  With a positive batch size, processing two inputs put end to end
    gives the data of the first followed by the data of the second: where
    the batches are cut never matters, and no item affects another. *)
Theorem process_app (self : ImprovedProcessor) (l1 l2 : list value) (b : Z) :
  l1 ≠ [] → l2 ≠ [] →
  batch_size_of self = Ok b → 0 < b →
  ∃ d1 d2,
    data (process (VList l1) self).1 = VList d1
    ∧ data (process (VList l2) self).1 = VList d2
    ∧ data (process (VList (l1 ++ l2)) self).1 = VList (d1 ++ d2).
Proof.
  intros H1 H2 Hb Hpos.
  rewrite !(process_positive _ _ b) by (done || by destruct l1, l2).
  exists (emitted l1), (emitted l2). read_result.
  by rewrite emitted_app.
Qed.

Lemma process_app_witness :
  ∃ d1 d2,
    data (process (VList [VInt 6; VInt 1]) (__init__ None)).1 = VList d1
    ∧ data (process (VList [VStr "x"; VInt 10]) (__init__ None)).1 = VList d2
    ∧ data (process (VList ([VInt 6; VInt 1] ++ [VStr "x"; VInt 10]))
              (__init__ None)).1 = VList (d1 ++ d2).
Proof.
  apply (process_app (__init__ None) [VInt 6; VInt 1] [VStr "x"; VInt 10] 97);
    [done|done|reflexivity|lia].
Defined.

(** ** Configurations the constructor accepts and [process] cannot use *)



(** X12.  A batch size that is neither an integer nor a boolean (a float, a
    string, [None], a list, ...) is refused when the range of the batches is
    built: every valid input ends in a failure result that names the type of
    the batch size, the failed counter goes up by one and no item is
    processed. *)
Theorem non_integer_batch_size_fails
    (self : ImprovedProcessor) (input batch_size : value) :
  self_config self !! "batch_size" = Some batch_size →
  (∀ z, batch_size ≠ VInt z) → (∀ b, batch_size ≠ VBool b) →
  nonempty_list_or_tuple input = true →
  success (process input self).1 = false
  ∧ error (process input self).1
    = Some ("'" +:+ type_name batch_size
            +:+ "' object cannot be interpreted as an integer")
  ∧ failed (self_metrics (process input self).2) = failed (self_metrics self) + 1
  ∧ processed (self_metrics (process input self).2) = processed (self_metrics self).
Proof.
  intros Hkey Hint Hbool Hvalid.
  rewrite process_valid by done. cbv zeta. unfold batch_starts, py_getitem.
  rewrite Hkey. cbn.
  destruct batch_size; try done; [by destruct (Hbool b)|by destruct (Hint z)].
Qed.

Lemma non_integer_batch_size_fails_witness :
  let self := __init__ (Some {[ "batch_size" := VStr "10" ]}) in
  success (process (VList [VInt 10]) self).1 = false
  ∧ error (process (VList [VInt 10]) self).1
    = Some "'str' object cannot be interpreted as an integer"
  ∧ failed (self_metrics (process (VList [VInt 10]) self).2) = 0 + 1
  ∧ processed (self_metrics (process (VList [VInt 10]) self).2) = 0.
Proof.
  apply (non_integer_batch_size_fails
           (__init__ (Some {[ "batch_size" := VStr "10" ]}))
           (VList [VInt 10]) (VStr "10"));
    [reflexivity|discriminate|discriminate|reflexivity].
Defined.

(** ** The factory *)

(** X13.  [create_processor] knows one tag, compared exactly: for
    ["improved"] it returns a fresh instance with the default configuration
    and both counters at zero, on which every non-empty list or tuple is
    processed successfully; for any other tag it raises a [ValueError] whose
    description ends in the tag. *)
Theorem create_processor_spec (processor_type : string) :
  (processor_type = "improved"
   ∧ ∃ processor,
       create_processor processor_type = Ok processor
       ∧ self_config processor = _get_default_config
       ∧ processed (self_metrics processor) = 0
       ∧ failed (self_metrics processor) = 0
       ∧ ∀ input, nonempty_list_or_tuple input = true →
                  success (process input processor).1 = true)
  ∨ (processor_type ≠ "improved"
     ∧ ∃ e,
         create_processor processor_type = Raise e
         ∧ e = ValueError ("Unknown processor type: " +:+ processor_type)
         ∧ str_exception e = "Unknown processor type: " +:+ processor_type).
Proof.
  unfold create_processor.
  destruct (String.eqb_spec processor_type "improved") as [->|Hne].
  - left. split; [done|]. eexists. split; [reflexivity|].
    repeat split. intros input Hvalid.
    by rewrite (process_nonzero _ _ 97).
  - right. split; [done|]. eexists. by repeat split.
Qed.

(** ** The batches *)

Section Batches.
Context {A : Type}.
Implicit Types l : list A.

Lemma range_len_ceil (n b : Z) :
  0 ≤ n → 0 < b → range_len 0 n b = (n + b - 1) / b.
Proof.
  intros Hn Hb. unfold range_len.
  destruct (Z.ltb_spec 0 b); [|lia].
  destruct (Z.ltb_spec 0 n).
  - replace (n + b - 1) with (n - 1 + 1 * b) by lia.
    rewrite Z.div_add by lia. by rewrite Z.sub_0_r.
  - replace n with 0 by lia. by rewrite Z.div_small by lia.
Qed.

Lemma batches_chunks l (b : Z) :
  0 < b →
  batches l b
  = (λ k : nat, take (Z.to_nat b) (drop (k * Z.to_nat b) l))
      <$> seq 0 (Z.to_nat (range_len 0 (Z.of_nat (length l)) b)).
Proof.
  intros Hb. unfold batches, range_items. rewrite <- list_fmap_compose.
  apply list_fmap_ext. intros _ k _. cbn.
  rewrite <- slice_items_chunk.
  replace (Z.of_nat k * b) with (Z.of_nat (k * Z.to_nat b)) by lia.
  by replace (Z.of_nat (Z.to_nat b)) with b by lia.
Qed.

(** X14.  The batches of a call with a positive batch size [b]: joined in
    order they give the input back; there are [ceil(len / b)] of them; none
    is empty or longer than [b]; and every batch but the last holds exactly
    [b] items. *)
Theorem batches_partition l (b : Z) :
  0 < b →
  mjoin (batches l b) = l
  ∧ Z.of_nat (length (batches l b)) = (Z.of_nat (length l) + b - 1) / b
  ∧ ∀ (k : nat) (batch : list A),
      batches l b !! k = Some batch →
      1 ≤ Z.of_nat (length batch) ≤ b
      ∧ ((S k < length (batches l b))%nat → Z.of_nat (length batch) = b).
Proof.
  intros Hb. split; [by apply slices_cover|].
  rewrite batches_chunks by done.
  rewrite length_fmap, length_seq, range_len_ceil by lia.
  set (n := Z.of_nat (length l)).
  assert (0 ≤ (n + b - 1) / b) as Hq by (apply Z.div_pos; lia).
  split; [lia|].
  intros k batch Hk.
  apply list_lookup_fmap_Some in Hk as (k' & -> & Hk').
  apply lookup_seq in Hk' as [-> Hlt]. cbn [Nat.add].
  rewrite length_take, length_drop.
  pose proof (Z.mul_div_le (n + b - 1) b Hb) as Hle.
  pose proof (Z.mul_succ_div_gt (n + b - 1) b Hb) as Hgt.
  assert (Z.of_nat k < (n + b - 1) / b) as Hkq by lia.
  assert (Z.of_nat k * b < n) as Hkn by nia.
  split.
  - subst n. nia.
  - intros HS. assert (Z.of_nat (S k) < (n + b - 1) / b) as HSq by lia.
    assert (Z.of_nat (S k) * b < n) by nia.
    subst n. nia.
Qed.

End Batches.

Lemma batches_partition_witness :
  mjoin (batches [1; 2; 3; 4; 5; 6; 7] 3) = [1; 2; 3; 4; 5; 6; 7]
  ∧ Z.of_nat (length (batches [1; 2; 3; 4; 5; 6; 7] 3)) = (7 + 3 - 1) / 3
  ∧ ∀ (k : nat) (batch : list Z),
      batches [1; 2; 3; 4; 5; 6; 7] 3 !! k = Some batch →
      1 ≤ Z.of_nat (length batch) ≤ 3
      ∧ ((S k < length (batches [1; 2; 3; 4; 5; 6; 7] 3))%nat
         → Z.of_nat (length batch) = 3).
Proof. apply (batches_partition [1; 2; 3; 4; 5; 6; 7] 3). lia. Defined.

(** X15.  The data of a call is put together batch by batch: whenever the
    batch size is a non-zero integer, [_process_batch] returns without an
    exception on every batch of the input, and the data of the call is
    these returns joined in the order of the batches. *)
Theorem process_by_batches (self : ImprovedProcessor) (l : list value) (b : Z) :
  l ≠ [] →
  batch_size_of self = Ok b → b ≠ 0 →
  ∃ per_batch : list (list value),
    Forall2 (λ batch out, _process_batch (VList batch) = Ok out)
            (batches l b) per_batch
    ∧ data (process (VList l) self).1 = VList (mjoin per_batch).
Proof.
  intros Hl Hb Hnz. exists (emitted <$> batches l b). split.
  - apply Forall2_fmap_r, Forall_Forall2_diag, Forall_forall. by intros batch _.
  - rewrite process_valid by by destruct l. cbv zeta.
    rewrite (batch_starts_nonzero _ _ b) by done.
    cbn [fst data success_result sequence_items].
    by rewrite emitted_concat.
Qed.

Lemma process_by_batches_witness :
  ∃ per_batch : list (list value),
    Forall2 (λ batch out, _process_batch (VList batch) = Ok out)
            (batches [VInt 1; VInt 7; VNone; VInt 8; VInt 9] 2) per_batch
    ∧ data (process (VList [VInt 1; VInt 7; VNone; VInt 8; VInt 9])
              (__init__ (Some {[ "batch_size" := VInt 2 ]}))).1
      = VList (mjoin per_batch).
Proof.
  apply (process_by_batches (__init__ (Some {[ "batch_size" := VInt 2 ]}))
           [VInt 1; VInt 7; VNone; VInt 8; VInt 9] 2);
    [done|reflexivity|lia].
Defined.
